(** * dj-photon-codecs: the [PhotonCodec] of [src/dj_photon_codecs/codecs.py]

    A shallow embedding of [PhotonCodec.validate], [PhotonCodec.encode] and
    [PhotonCodec.decode], and the properties of the codec contract.

    Python values are an inductive type, dicts with string keys are [gmap
    string _], exceptions are values of [exn] carrying [str(e)] and
    [__cause__], and the Zarr store is threaded explicitly through a small
    state-and-exception monad.  The collaborators that live outside the
    repository (the [SchemaCodec] base class, the [anscombe] transform, the
    I/O faults of the storage engine) are the variables of Section [Codec]. *)

From Stdlib Require Import ZArith List Bool Lia.
From Stdlib Require Import Strings.String Strings.Ascii.
From Stdlib Require Import Numbers.DecimalString.
From Stdlib Require Import Floats.SpecFloat.
From stdpp Require Import base option gmap strings.

Set Warnings "-register-all".
Local Open Scope string_scope.

(** ** Python values *)

(** numpy element types the embedding covers: booleans, signed and unsigned
    integers, IEEE floats, the opaque [object] type, and the element types
    that have no ordering against an integer: fixed-width text and bytes,
    [datetime64], and structured records. *)
Inductive int_width := W8 | W16 | W32 | W64.
Inductive float_width := F16 | F32 | F64.

Inductive dtype :=
| dt_bool
| dt_int (w : int_width)
| dt_uint (w : int_width)
| dt_float (w : float_width)
| dt_object
| dt_str (n : nat)
| dt_bytes (n : nat)
| dt_datetime64 (unit : string)
| dt_struct (descr : string).

Definition int_width_name (w : int_width) : string :=
  match w with W8 => "8" | W16 => "16" | W32 => "32" | W64 => "64" end.

Definition float_width_name (w : float_width) : string :=
  match w with F16 => "16" | F32 => "32" | F64 => "64" end.

(** [str(dtype)] *)
Definition dtype_str (d : dtype) : string :=
  match d with
  | dt_bool => "bool"
  | dt_int w => "int" +:+ int_width_name w
  | dt_uint w => "uint" +:+ int_width_name w
  | dt_float w => "float" +:+ float_width_name w
  | dt_object => "object"
  | dt_str n => "<U" +:+ NilEmpty.string_of_uint (Nat.to_uint n)
  | dt_bytes n => "|S" +:+ NilEmpty.string_of_uint (Nat.to_uint n)
  | dt_datetime64 unit => "datetime64[" +:+ unit +:+ "]"
  | dt_struct descr => descr
  end.

Definition dtype_eqb (d1 d2 : dtype) : bool :=
  match d1, d2 with
  | dt_bool, dt_bool => true
  | dt_int a, dt_int b | dt_uint a, dt_uint b =>
      match a, b with
      | W8, W8 | W16, W16 | W32, W32 | W64, W64 => true
      | _, _ => false
      end
  | dt_float a, dt_float b =>
      match a, b with
      | F16, F16 | F32, F32 | F64, F64 => true
      | _, _ => false
      end
  | dt_object, dt_object => true
  | dt_str a, dt_str b | dt_bytes a, dt_bytes b => Nat.eqb a b
  | dt_datetime64 a, dt_datetime64 b | dt_struct a, dt_struct b =>
      String.eqb a b
  | _, _ => false
  end.

(** The element types with a [<] against the integer zero among the
    non-object ones: booleans and numbers. *)
Definition numeric_dtype (d : dtype) : bool :=
  match d with
  | dt_bool | dt_int _ | dt_uint _ | dt_float _ => true
  | _ => false
  end.

(** The flat element buffer of an array; its constructor fixes the element
    type, so buffer and [dtype] cannot disagree.  Objects are kept by the
    name of their class only. *)
Inductive buffer :=
| BoolData (l : list bool)
| IntData (w : int_width) (l : list Z)
| UIntData (w : int_width) (l : list Z)
| FloatData (w : float_width) (l : list spec_float)
| ObjectData (l : list string)
| StrData (n : nat) (l : list string)
| BytesData (n : nat) (l : list string)
| DatetimeData (unit : string) (l : list Z)
| StructData (descr : string) (l : list string).

(** [numpy.ndarray]: [value.shape] and the elements in C order. *)
Record ndarray := Ndarray { shape : list nat; data : buffer }.

Definition ndarray_dtype (a : ndarray) : dtype :=
  match data a with
  | BoolData _ => dt_bool
  | IntData w _ => dt_int w
  | UIntData w _ => dt_uint w
  | FloatData w _ => dt_float w
  | ObjectData _ => dt_object
  | StrData n _ => dt_str n
  | BytesData n _ => dt_bytes n
  | DatetimeData unit _ => dt_datetime64 unit
  | StructData descr _ => dt_struct descr
  end.

(** [value.ndim] *)
Definition ndim (a : ndarray) : nat := length (shape a).

Inductive pyvalue :=
| PyNone
| PyBool (b : bool)
| PyInt (z : Z)
| PyFloat (f : spec_float)
| PyStr (s : string)
| PyList (l : list pyvalue)
| PyDict (d : list (string * pyvalue))
| PyArray (a : ndarray)
| PyObject (cls : string).

(** [type(value).__name__] *)
Definition type_name (v : pyvalue) : string :=
  match v with
  | PyNone => "NoneType"
  | PyBool _ => "bool"
  | PyInt _ => "int"
  | PyFloat _ => "float"
  | PyStr _ => "str"
  | PyList _ => "list"
  | PyDict _ => "dict"
  | PyArray _ => "ndarray"
  | PyObject cls => cls
  end.

(** The decimal text of a number inside an f-string. *)
Definition str_of_nat (n : nat) : string :=
  NilEmpty.string_of_uint (Nat.to_uint n).

(** binary64 constants *)
Definition float_zero : spec_float := S754_zero false.
Definition float_one : spec_float := S754_finite false 4503599627370496 (-52).

(** ** Exceptions *)

(** An instance of a Python [Exception] class: the class, [str(e)], and
    [e.__cause__] as set by [raise ... from e]. *)
Inductive exn :=
| Exn (cls : string) (msg : string) (cause : option exn).

Definition exn_class (e : exn) : string := let 'Exn c _ _ := e in c.
Definition exn_str (e : exn) : string := let 'Exn _ m _ := e in m.
Definition exn_cause (e : exn) : option exn := let 'Exn _ _ c := e in c.

Definition DataJointError (msg : string) : exn := Exn "DataJointError" msg None.
Definition DataJointError_from (msg : string) (e : exn) : exn :=
  Exn "DataJointError" msg (Some e).

(** A call that returns or raises, without touching the store. *)
Definition result (A : Type) : Type := exn + A.

(** ** [PhotonCodec.validate] *)

Definition msg_not_ndarray (v : pyvalue) : string :=
  "<photon> requires numpy.ndarray, got " +:+ type_name v.
Definition msg_object_dtype : string :=
  "<photon> does not support object dtype arrays".
Definition msg_ndim (n : nat) : string :=
  "<photon> requires 3D+ arrays (time, height, width, ...), got "
  +:+ str_of_nat n +:+ "D".
Definition msg_negative : string :=
  "<photon> requires non-negative values (photon counts cannot be negative)".

(** What [value < 0] raises on an element type for which numpy has no
    [less] loop against an integer: a [TypeError], of numpy's subclass for
    a ufunc without a loop.  The message goes on to quote the two types, in
    a form that varies with the numpy release. *)
Definition no_less_loop : exn :=
  Exn "TypeError"
      "ufunc 'less' did not contain a loop with signature matching types"
      None.

(** [np.any(value < 0)]: the elementwise comparison with the integer zero,
    then the disjunction over all elements.  Floats compare by IEEE 754
    [SFltb], so a NaN is not below zero.  Text, bytes, [datetime64] and
    structured elements do not compare with an integer: the comparison
    raises.  On an object array [validate] has raised before it gets
    here. *)
Definition any_lt_zero (b : buffer) : result bool :=
  match b with
  | BoolData l => inr (existsb (fun _ => false) l)
  | IntData _ l | UIntData _ l => inr (existsb (fun z => (z <? 0)%Z) l)
  | FloatData _ l => inr (existsb (fun f => SFltb f float_zero) l)
  | ObjectData l => inr (existsb (fun _ => false) l)
  | StrData _ _ | BytesData _ _ | DatetimeData _ _ | StructData _ _ =>
      inl no_less_loop
  end.

Definition validate (value : pyvalue) : result unit :=
  match value with
  | PyArray a =>
      if dtype_eqb (ndarray_dtype a) dt_object then
        inl (DataJointError msg_object_dtype)
      else if (ndim a <? 3)%nat then
        inl (DataJointError (msg_ndim (ndim a)))
      else
        match any_lt_zero (data a) with
        | inl e => inl e
        | inr true => inl (DataJointError msg_negative)
        | inr false => inr tt
        end
  | _ => inl (DataJointError (msg_not_ndarray value))
  end.

(** ** The Zarr store *)

Inductive shuffle_mode := NOSHUFFLE | SHUFFLE | BITSHUFFLE.

(** [zarr.Blosc(cname=..., clevel=..., shuffle=...)] *)
Record compressor :=
  Blosc { cname : string; clevel : nat; blosc_shuffle : shuffle_mode }.

(** One persisted array: the payload with its shape and element type, the
    declared chunk shape, the compressor, and the [.zattrs] mapping. *)
Record zarr_array := ZarrArray {
  za_data : ndarray;
  za_chunks : list nat;
  za_compressor : compressor;
  za_attrs : gmap string pyvalue
}.

(** The persisted world: what lies behind each fsspec mapper, the mapper
    being identified by the location it is rooted at. *)
Abbreviation store := (gmap string zarr_array).

Inductive open_mode := mode_r | mode_rw.

(** What [zarr.open] returns: a lazy handle; no payload is read. *)
Record handle := Handle { h_loc : string; h_mode : open_mode }.

(** The operations of the storage engine that can fail on their own. *)
Inductive io_op :=
| op_save (loc : string) (arr : ndarray) (chunks : list nat)
| op_open (loc : string) (mode : open_mode)
| op_attr_set (loc key : string) (v : pyvalue)
| op_attr_get (loc key : string).

(** ** Store-passing computations that may raise *)

Definition M (A : Type) : Type := store -> store * result A.

Definition ret {A} (x : A) : M A := fun st => (st, inr x).
Definition raise {A} (e : exn) : M A := fun st => (st, inl e).
Definition bind {A B} (c : M A) (k : A -> M B) : M B :=
  fun st =>
    match c st with
    | (st', inl e) => (st', inl e)
    | (st', inr x) => k x st'
    end.
Definition lift {A} (r : result A) : M A := fun st => (st, r).

Notation "'let!' x ':=' c 'in' k" := (bind c (fun x => k))
  (at level 10, x pattern, c at level 100, k at level 200).

(** [try: body except Exception as e: raise handler(e) from e] *)
Definition try_except {A} (body : M A) (handler : exn -> exn) : M A :=
  fun st =>
    match body st with
    | (st', inl e) => (st', inl (handler e))
    | (st', inr x) => (st', inr x)
    end.

(** ** Attribute access on dynamically typed values *)

Definition no_attribute (v : pyvalue) (attr : string) : exn :=
  Exn "AttributeError"
      ("'" +:+ type_name v +:+ "' object has no attribute '" +:+ attr +:+ "'")
      None.

(** [value.shape] *)
Definition py_shape (v : pyvalue) : result (list nat) :=
  match v with
  | PyArray a => inr (shape a)
  | _ => inl (no_attribute v "shape")
  end.

(** [value.dtype] *)
Definition py_dtype (v : pyvalue) : result dtype :=
  match v with
  | PyArray a => inr (ndarray_dtype a)
  | _ => inl (no_attribute v "dtype")
  end.

(** [d.get(k)], [d.get(k, default)] and [d[k]] on a dict with string keys *)
Definition dict_get (d : gmap string pyvalue) (k : string) : pyvalue :=
  default PyNone (d !! k).
Definition dict_get_default (d : gmap string pyvalue) (k : string)
    (dflt : pyvalue) : pyvalue :=
  default dflt (d !! k).
Definition dict_getitem (d : gmap string pyvalue) (k : string)
    : result pyvalue :=
  match d !! k with
  | Some v => inr v
  | None => inl (Exn "KeyError" ("'" +:+ k +:+ "'") None)
  end.

(** ** Constants of the class *)

Definition name : string := "photon".
Definition CODEC_VERSION : string := "1.0".

(** [min(100, value.shape[0])] followed by [(chunk_time,) + value.shape[1:]] *)
Definition chunk_shape (shp : list nat) : result (list nat) :=
  match shp with
  | [] => inl (Exn "IndexError" "tuple index out of range" None)
  | n :: rest => inr (Nat.min 100 n :: rest)
  end.

Definition encode_compressor : compressor :=
  Blosc "zstd" 5 BITSHUFFLE.

Definition encode_error (e : exn) : exn :=
  DataJointError_from ("Failed to encode photon movie: " +:+ exn_str e) e.
Definition decode_error (e : exn) : exn :=
  DataJointError_from ("Failed to decode photon movie: " +:+ exn_str e) e.

Definition msg_unsupported (version : string) : string :=
  "Unsupported photon codec version: " +:+ version
  +:+ ". Upgrade dj-photon-codecs or migrate data.".

(** ** The codec, over its collaborators *)

Section Codec.

(** [SchemaCodec._extract_context], [SchemaCodec._build_path] and
    [SchemaCodec._get_backend] of the host, [backend.get_fsmap], and
    [anscombe.generalized_anscombe]: calls that return or raise. *)
Variable extract_context :
  pyvalue -> result (pyvalue * pyvalue * pyvalue * pyvalue).
Variable build_path :
  pyvalue -> pyvalue -> pyvalue -> pyvalue -> string -> pyvalue ->
  result (pyvalue * pyvalue).
Variable backend : Type.
Variable get_backend : pyvalue -> result backend.
Variable get_fsmap : backend -> pyvalue -> result string.
Variable generalized_anscombe :
  pyvalue -> spec_float -> spec_float -> spec_float -> result ndarray.

(** The failures of the storage engine itself (an I/O error, a refused
    chunk shape, ...), and what a write that failed leaves behind. *)
Variable io_fault : store -> io_op -> option exn.
Variable torn_write : store -> io_op -> store.

(** [zarr.save_array(store_map, arr, chunks=..., compressor=...)]:
    replaces whatever was at the location by a fresh array without
    attributes. *)
Definition zarr_save_array (loc : string) (arr : ndarray)
    (chunks : list nat) (comp : compressor) : M unit :=
  fun st =>
    match io_fault st (op_save loc arr chunks) with
    | Some e => (torn_write st (op_save loc arr chunks), inl e)
    | None => (<[loc := ZarrArray arr chunks comp ∅]> st, inr tt)
    end.

(** [zarr.open(store_map, mode=...)] for the modes [r] and [r+], which
    both require the array to exist. *)
Definition zarr_open (loc : string) (mode : open_mode) : M handle :=
  fun st =>
    match io_fault st (op_open loc mode) with
    | Some e => (st, inl e)
    | None =>
        match st !! loc with
        | Some _ => (st, inr (Handle loc mode))
        | None =>
            (st, inl (Exn "PathNotFoundError"
                          ("nothing found at path " +:+ loc) None))
        end
    end.

(** [z.attrs[key] = v] *)
Definition attrs_setitem (z : handle) (key : string) (v : pyvalue)
    : M unit :=
  fun st =>
    let op := op_attr_set (h_loc z) key v in
    match io_fault st op with
    | Some e => (torn_write st op, inl e)
    | None =>
        match h_mode z, st !! h_loc z with
        | mode_rw, Some za =>
            (<[h_loc z := ZarrArray (za_data za) (za_chunks za)
                            (za_compressor za) (<[key := v]> (za_attrs za))]>
               st, inr tt)
        | mode_r, _ =>
            (st, inl (Exn "PermissionError" "attributes are read-only" None))
        | mode_rw, None =>
            (st, inl (Exn "PathNotFoundError"
                          ("nothing found at path " +:+ h_loc z) None))
        end
    end.

(** [z.attrs.get(key, dflt)] *)
Definition attrs_get (z : handle) (key : string) (dflt : pyvalue)
    : M pyvalue :=
  fun st =>
    match io_fault st (op_attr_get (h_loc z) key) with
    | Some e => (st, inl e)
    | None =>
        match st !! h_loc z with
        | Some za => (st, inr (default dflt (za_attrs za !! key)))
        | None =>
            (st, inl (Exn "PathNotFoundError"
                          ("nothing found at path " +:+ h_loc z) None))
        end
    end.

(** The body of the [try] in [PhotonCodec.encode]. *)
Definition encode_body (value key store_name : pyvalue)
    : M (gmap string pyvalue) :=
  let! _ := lift (validate value) in
  let! (schema, table, field, primary_key) := lift (extract_context key) in
  let! (path, _token) :=
    lift (build_path schema table field primary_key ".zarr" store_name) in
  let! backend := lift (get_backend store_name) in
  let! store_map := lift (get_fsmap backend path) in
  let! transformed :=
    lift (generalized_anscombe value float_one float_zero float_zero) in
  let! shp := lift (py_shape value) in
  let! chunks := lift (chunk_shape shp) in
  let! _ := zarr_save_array store_map transformed chunks encode_compressor in
  let! z := zarr_open store_map mode_rw in
  let! _ := attrs_setitem z "codec_version" (PyStr CODEC_VERSION) in
  let! _ := attrs_setitem z "codec_name" (PyStr name) in
  let! _ := attrs_setitem z "anscombe_gain" (PyFloat float_one) in
  let! _ := attrs_setitem z "anscombe_offset" (PyFloat float_zero) in
  let! _ := attrs_setitem z "anscombe_variance" (PyFloat float_zero) in
  let! dt := lift (py_dtype value) in
  let! _ := attrs_setitem z "original_dtype" (PyStr (dtype_str dt)) in
  ret (list_to_map
         [("path", path);
          ("store", store_name);
          ("codec_version", PyStr CODEC_VERSION);
          ("shape", PyList (map (fun n => PyInt (Z.of_nat n)) shp));
          ("dtype", PyStr (dtype_str (ndarray_dtype transformed)));
          ("transform", PyStr "anscombe")]).

Definition encode (value key store_name : pyvalue)
    : M (gmap string pyvalue) :=
  try_except (encode_body value key store_name) encode_error.

(** Lines 264-266: [z.attrs.get("codec_version",
    stored.get("codec_version", "1.0"))]. *)
Definition resolve_version (z : handle) (stored : gmap string pyvalue)
    : M pyvalue :=
  attrs_get z "codec_version"
    (dict_get_default stored "codec_version" (PyStr "1.0")).

(** Lines 269-275: [version.startswith("1.")] and its two branches. *)
Definition version_gate (z : handle) (version : pyvalue) : M handle :=
  match version with
  | PyStr s =>
      if String.prefix "1." s then ret z
      else raise (DataJointError (msg_unsupported s))
  | _ => raise (no_attribute version "startswith")
  end.

(** The body of the [try] in [PhotonCodec.decode]; [key] is a parameter
    of the method. *)
Definition decode_body (stored : gmap string pyvalue) (key : pyvalue)
    : M handle :=
  let! backend := lift (get_backend (dict_get stored "store")) in
  let! path := lift (dict_getitem stored "path") in
  let! store_map := lift (get_fsmap backend path) in
  let! z := zarr_open store_map mode_r in
  let! version := resolve_version z stored in
  version_gate z version.

Definition decode (stored : gmap string pyvalue) (key : pyvalue)
    : M handle :=
  try_except (decode_body stored key) decode_error.

(** [decode] gets as far as the version check: the backend resolves, the
    record has a path, the mapper is rooted at [h_loc z], the array [za]
    is there and opens read-only as [z], and its attributes can be read. *)
Definition opens_artifact (stored : gmap string pyvalue) (st : store)
    (z : handle) (za : zarr_array) : Prop :=
  exists b path,
    get_backend (dict_get stored "store") = inr b /\
    stored !! "path" = Some path /\
    get_fsmap b path = inr (h_loc z) /\
    h_mode z = mode_r /\
    io_fault st (op_open (h_loc z) mode_r) = None /\
    st !! h_loc z = Some za /\
    io_fault st (op_attr_get (h_loc z) "codec_version") = None.

(** The artifact a record handed back by [encode] points to, found the
    way [decode] finds it: through the record's store and path. *)
Definition artifact_of_record (r : gmap string pyvalue) (st : store)
    (za : zarr_array) : Prop :=
  exists b path loc,
    get_backend (dict_get r "store") = inr b /\
    r !! "path" = Some path /\
    get_fsmap b path = inr loc /\
    st !! loc = Some za.

End Codec.

(** The attributes an artifact carries once [encode] has written all six. *)
Definition encode_attrs (original : dtype) : gmap string pyvalue :=
  <["original_dtype" := PyStr (dtype_str original)]>
    (<["anscombe_variance" := PyFloat float_zero]>
       (<["anscombe_offset" := PyFloat float_zero]>
          (<["anscombe_gain" := PyFloat float_one]>
             (<["codec_name" := PyStr name]>
                (<["codec_version" := PyStr CODEC_VERSION]> ∅))))).

(** ** The version rule in the words of the specification *)

(** The text of a version string up to its first dot. *)
Fixpoint major_text (s : string) : string :=
  match s with
  | EmptyString => EmptyString
  | String c rest =>
      if Ascii.eqb c "."%char then EmptyString else String c (major_text rest)
  end.

(** The major version number of a version string, read as the
    specification words it: the decimal number that stands before the first
    dot, or that is the whole string when there is no minor part. *)
Definition spec_major_version (s : string) : option nat :=
  match major_text s with
  | EmptyString => None
  | t => Nat.of_uint <$> NilEmpty.uint_of_string t
  end.

(** The version a reader resolves, in the words of the specification: the
    artifact's own attribute, else the field of the external record, else
    the baseline. *)
Definition spec_resolved_version (attrs stored : gmap string pyvalue)
    : pyvalue :=
  match attrs !! "codec_version" with
  | Some v => v
  | None =>
      match stored !! "codec_version" with
      | Some v => v
      | None => PyStr "1.0"
      end
  end.

(** The elements of a buffer that compare below zero. *)
Definition has_negative (b : buffer) : Prop :=
  match b with
  | BoolData _ | ObjectData _ => False
  | StrData _ _ | BytesData _ _ | DatetimeData _ _ | StructData _ _ => False
  | IntData _ l | UIntData _ l => Exists (fun z => (z < 0)%Z) l
  | FloatData _ l => Exists (fun f => SFltb f float_zero = true) l
  end.

(** The floats that compare below zero: the negative infinity and the
    negative finite numbers; not a zero of either sign, not a NaN. *)
Definition float_is_negative (f : spec_float) : bool :=
  match f with
  | S754_infinity true | S754_finite true _ _ => true
  | _ => false
  end.

(** [sub] occurs in [s]: an error message names a version. *)
Definition names (msg sub : string) : Prop :=
  exists before after, msg = before +:+ sub +:+ after.

(** ** A concrete host, transform and store, to run the codec on *)

Module Demo.

Fixpoint assoc (k : string) (d : list (string * pyvalue)) : option pyvalue :=
  match d with
  | [] => None
  | (k', v) :: rest => if String.eqb k k' then Some v else assoc k rest
  end.

(** The identity context travels inside [key]. *)
Definition extract_context (key : pyvalue)
    : result (pyvalue * pyvalue * pyvalue * pyvalue) :=
  match key with
  | PyDict d =>
      match assoc "_schema" d, assoc "_table" d, assoc "_field" d with
      | Some sc, Some tb, Some fd => inr (sc, tb, fd, key)
      | _, _, _ =>
          inl (DataJointError "Missing context in key")
      end
  | _ => inl (DataJointError "Missing context in key")
  end.

Definition build_path (schema table field primary_key : pyvalue)
    (ext : string) (store_name : pyvalue) : result (pyvalue * pyvalue) :=
  match schema, table, field, primary_key with
  | PyStr sc, PyStr tb, PyStr fd, PyDict d =>
      match assoc "recording_id" d with
      | Some (PyInt z) =>
          inr (PyStr (sc +:+ "/" +:+ tb +:+ "/recording_id="
                      +:+ NilEmpty.string_of_int (Z.to_int z)
                      +:+ "/" +:+ fd +:+ ext),
               PyStr "token")
      | _ => inl (DataJointError "Missing primary key")
      end
  | _, _, _, _ => inl (DataJointError "Malformed context")
  end.

(** Two stores: the default one and [cold]. *)
Definition get_backend (store_name : pyvalue) : result string :=
  match store_name with
  | PyNone => inr "file:///data"
  | PyStr "cold" => inr "s3://cold"
  | _ => inl (DataJointError "Unknown store")
  end.

Definition get_fsmap (root : string) (path : pyvalue) : result string :=
  match path with
  | PyStr p => inr (root +:+ "/" +:+ p)
  | _ => inl (Exn "TypeError" "expected str" None)
  end.

Definition f64_of_Z (z : Z) : spec_float :=
  binary_normalize 53 1024 z 0 false.

Definition fmul := SFmul 53 1024.
Definition fadd := SFadd 53 1024.
Definition fsub := SFsub 53 1024.
Definition fdiv := SFdiv 53 1024.

(** [(2 / gain) * sqrt(gain * x + 3/8 * gain^2 + variance - gain * offset)]
    on binary64: at unit gain, no offset and no read-out variance it is
    [2 * sqrt(x + 3/8)]. *)
Definition anscombe1 (gain offset variance x : spec_float) : spec_float :=
  fmul (fdiv (f64_of_Z 2) gain)
    (SFsqrt 53 1024
       (fadd (fadd (fmul gain x)
                   (fmul (fdiv (f64_of_Z 3) (f64_of_Z 8)) (fmul gain gain)))
             (fsub variance (fmul gain offset)))).

Definition as_f64 (b : buffer) : list spec_float :=
  match b with
  | BoolData l => map (fun x : bool => f64_of_Z (if x then 1 else 0)) l
  | IntData _ l | UIntData _ l => map f64_of_Z l
  | FloatData _ l => l
  | ObjectData l | StrData _ l | BytesData _ l | StructData _ l =>
      map (fun _ => S754_nan) l
  | DatetimeData _ l => map f64_of_Z l
  end.

(** A stand-in for the transform of the [anscombe] package: elementwise,
    with a binary64 result. *)
Definition generalized_anscombe (value : pyvalue)
    (gain offset variance : spec_float) : result ndarray :=
  match value with
  | PyArray a =>
      inr (Ndarray (shape a)
             (FloatData F64
                (map (anscombe1 gain offset variance) (as_f64 (data a)))))
  | _ => inl (no_attribute value "astype")
  end.

Definition io_fault (st : store) (op : io_op) : option exn := None.
Definition torn_write (st : store) (op : io_op) : store := st.

Definition encode := encode extract_context build_path string get_backend
                       get_fsmap generalized_anscombe io_fault torn_write.
Definition decode := decode string get_backend get_fsmap io_fault.

(** A 3 x 1 x 2 movie of photon counts. *)
Definition movie : ndarray :=
  Ndarray [3; 1; 2]%nat (IntData W64 [0; 1; 2; 3; 4; 5]%Z).

(** A 3 x 1 x 2 float movie with missing samples. *)
Definition nan_movie : ndarray :=
  Ndarray [3; 1; 2]%nat
    (FloatData F64 [S754_nan; float_one; S754_nan; float_zero;
                    S754_nan; S754_nan]).

Definition key1 : pyvalue :=
  PyDict [("_schema", PyStr "calcium_imaging"); ("_table", PyStr "recording");
          ("_field", PyStr "movie"); ("recording_id", PyInt 1)].

Definition loc1 : string :=
  "file:///data/calcium_imaging/recording/recording_id=1/movie.zarr".

Definition path1 : string :=
  "calcium_imaging/recording/recording_id=1/movie.zarr".
Definition handle1 : handle := Handle loc1 mode_r.

(** The artifact and the record a run of [encode] on [movie] with [key1]
    in the default store leaves. *)
Definition transformed_movie : ndarray :=
  Ndarray [3; 1; 2]%nat
    (FloatData F64
       (map (anscombe1 float_one float_zero float_zero)
            (map f64_of_Z [0; 1; 2; 3; 4; 5]%Z))).
Definition encoded_artifact : zarr_array :=
  ZarrArray transformed_movie [3; 1; 2]%nat encode_compressor
    (encode_attrs (dt_int W64)).
Definition encoded_store : store := {[ loc1 := encoded_artifact ]}.
Definition encoded_record : gmap string pyvalue :=
  list_to_map
    [("path", PyStr path1);
     ("store", PyNone);
     ("codec_version", PyStr "1.0");
     ("shape", PyList [PyInt 3; PyInt 1; PyInt 2]);
     ("dtype", PyStr "float64");
     ("transform", PyStr "anscombe")].

(** An artifact that declares the version [v], and a record for it. *)
Definition declared (v : pyvalue) : zarr_array :=
  ZarrArray transformed_movie [3; 1; 2]%nat encode_compressor
    {[ "codec_version" := v ]}.
Definition artifact (v : pyvalue) : store := {[ loc1 := declared v ]}.

(** An artifact whose attributes were never written. *)
Definition bare : zarr_array :=
  ZarrArray transformed_movie [3; 1; 2]%nat encode_compressor ∅.
Definition bare_artifact : store := {[ loc1 := bare ]}.

Definition record1 : gmap string pyvalue := {[ "path" := PyStr path1 ]}.

(** A frame, not a movie. *)
Definition frame : ndarray :=
  Ndarray [2; 2]%nat (IntData W64 [1; 2; 3; 4]%Z).

(** A storage engine that writes arrays but refuses to reopen them for
    update. *)
Definition no_reopen (st : store) (op : io_op) : option exn :=
  match op with
  | op_open _ mode_rw => Some (Exn "PermissionError" "Permission denied" None)
  | _ => None
  end.

Definition edge_movie : ndarray :=
  Ndarray [2; 1; 2]%nat
    (FloatData F32 [S754_zero true; S754_infinity false; S754_nan; float_one]).

(** A 2 x 1 x 2 array of one-letter labels. *)
Definition label_movie : ndarray :=
  Ndarray [2; 1; 2]%nat (StrData 1 ["a"; "b"; "c"; "d"]).

(** An artifact whose version attribute is a number, not a string. *)
Definition numbered : store := artifact (PyInt 1).

End Demo.

(** * Properties *)

(** ** The validator *)

Lemma dtype_eqb_object (d : dtype) :
  dtype_eqb d dt_object = true <-> d = dt_object.
Proof. destruct d; simpl; split; intros H; congruence. Qed.

Lemma existsb_const_false {A} (l : list A) : existsb (fun _ => false) l = false.
Proof. induction l as [|x l IH]; simpl; auto. Qed.

Lemma any_lt_zero_spec (b : buffer) :
  any_lt_zero b = inr true <-> has_negative b.
Proof.
  destruct b as [l|w l|w l|w l|l|n l|n l|u l|d l]; simpl;
    try (split; [discriminate | tauto]);
    rewrite ?existsb_const_false;
    try (split; [discriminate | tauto]);
    (split; [intros [= H] | intros H; f_equal]);
    rewrite ?existsb_exists, ?List.Exists_exists in *;
    destruct H as (x & Hin & Hx); exists x; cbv beta in *; split; auto;
    now apply Z.ltb_lt.
Qed.

(** The comparison raises exactly on the element types without an ordering
    against an integer, and then with numpy's [TypeError]. *)
Lemma any_lt_zero_raises (a : ndarray) (e : exn) :
  any_lt_zero (data a) = inl e <->
  numeric_dtype (ndarray_dtype a) = false /\ ndarray_dtype a <> dt_object /\
  e = no_less_loop.
Proof.
  unfold ndarray_dtype.
  destruct (data a); simpl; split;
    try discriminate; try (intros (H & _); discriminate H);
    try (intros (_ & H & _); now destruct H).
  all: first [ intros [= <-]; repeat split; discriminate
             | intros (_ & _ & ->); reflexivity ].
Qed.


Lemma validate_accepts (v : pyvalue) :
  validate v = inr tt <->
  exists a, v = PyArray a /\ ndarray_dtype a <> dt_object /\
            (3 <= ndim a)%nat /\ ~ has_negative (data a) /\
            numeric_dtype (ndarray_dtype a) = true.
Proof.
  split.
  - destruct v; simpl; try discriminate.
    destruct (dtype_eqb _ _) eqn:Ed; [discriminate|].
    destruct (ndim a <? 3)%nat eqn:En; [discriminate|].
    destruct (any_lt_zero _) as [e|[|]] eqn:Ea; try discriminate.
    intros _. exists a.
    assert (ndarray_dtype a <> dt_object) as Hd.
    { intros Ho. apply dtype_eqb_object in Ho. congruence. }
    split; [reflexivity|]. split; [exact Hd|].
    split; [now apply Nat.ltb_ge|]. split.
    + intros Hn. apply any_lt_zero_spec in Hn. congruence.
    + destruct (numeric_dtype (ndarray_dtype a)) eqn:Hnum; [reflexivity|].
      assert (any_lt_zero (data a) = inl no_less_loop) as Hr
        by (apply any_lt_zero_raises; auto).
      congruence.
  - intros (a & -> & Hd & Hn & Hneg & Hnum). simpl.
    destruct (dtype_eqb _ _) eqn:Ed.
    { apply dtype_eqb_object in Ed. contradiction. }
    destruct (ndim a <? 3)%nat eqn:En.
    { apply Nat.ltb_lt in En. lia. }
    destruct (any_lt_zero _) as [e|[|]] eqn:Ea; [| |reflexivity].
    + apply any_lt_zero_raises in Ea. destruct Ea as (Hf & _). congruence.
    + apply any_lt_zero_spec in Ea. contradiction.
Qed.




(** C9. A floating-point array of three or more dimensions in which some
    elements are NaN and no element compares below zero passes
    [validate]: the check is [np.any(value < 0)], and a NaN compares below
    nothing. *)
Theorem validate_accepts_nan (w : float_width) (shp : list nat)
    (l : list spec_float) :
  (3 <= length shp)%nat ->
  In S754_nan l ->
  (forall f, In f l -> f = S754_nan \/ SFltb f float_zero = false) ->
  validate (PyArray (Ndarray shp (FloatData w l))) = inr tt.
Proof.
  intros Hn Hnan Hall.
  apply validate_accepts.
  exists (Ndarray shp (FloatData w l)).
  split; [reflexivity|]. split; [discriminate|]. split; [exact Hn|].
  split; [|reflexivity].
  simpl. rewrite List.Exists_exists. intros (f & Hin & Hf).
  destruct (Hall f Hin) as [-> | Hge].
  - discriminate Hf.
  - congruence.
Qed.

Lemma validate_accepts_nan_witness :
  validate (PyArray Demo.nan_movie) = inr tt.
Proof.
  apply (validate_accepts_nan F64 [3; 1; 2]%nat
           [S754_nan; float_one; S754_nan; float_zero; S754_nan; S754_nan]).
  - simpl. lia.
  - simpl. left. reflexivity.
  - simpl. intros f H.
    repeat (destruct H as [<- | H]; [first [left; reflexivity | right; reflexivity]|]).
    destruct H.
Defined.

(** ** More on the validator and the chunk shape *)

Lemma SFltb_zero (f : spec_float) : SFltb f float_zero = float_is_negative f.
Proof. destruct f as [s|s| |s m e]; try destruct s; reflexivity. Qed.

(** X8. On a floating-point array of three or more dimensions [validate]
    passes exactly when no element is a negative finite number or the
    negative infinity, and otherwise fails with the non-negativity error:
    zeros of either sign, the positive infinity and NaN all pass. *)
Theorem validate_float_array (w : float_width) (shp : list nat)
    (l : list spec_float) :
  (3 <= length shp)%nat ->
  (validate (PyArray (Ndarray shp (FloatData w l))) = inr tt <->
   forall f, In f l -> float_is_negative f = false) /\
  (validate (PyArray (Ndarray shp (FloatData w l)))
   = inl (DataJointError msg_negative) <->
   exists f, In f l /\ float_is_negative f = true).
Proof.
  intros Hn. unfold validate, ndim. cbn [ndarray_dtype data shape dtype_eqb].
  destruct (length shp <? 3)%nat eqn:En; [apply Nat.ltb_lt in En; lia|].
  cbn [any_lt_zero].
  destruct (existsb _ l) eqn:Ex.
  - apply existsb_exists in Ex. destruct Ex as (f & Hin & Hf).
    rewrite SFltb_zero in Hf. split; split.
    + discriminate.
    + intros Hall. rewrite (Hall f Hin) in Hf. discriminate.
    + intros _. now exists f.
    + reflexivity.
  - split; split.
    + intros _ f Hin. rewrite <- SFltb_zero.
      destruct (SFltb f float_zero) eqn:Hf; [|reflexivity].
      assert (existsb (fun f => SFltb f float_zero) l = true) as Ht
        by (apply existsb_exists; now exists f).
      congruence.
    + reflexivity.
    + discriminate.
    + intros (f & Hin & Hf). rewrite <- SFltb_zero in Hf.
      assert (existsb (fun f => SFltb f float_zero) l = true) as Ht
        by (apply existsb_exists; now exists f).
      congruence.
Qed.

Lemma validate_float_array_witness :
  validate (PyArray Demo.edge_movie) = inr tt.
Proof.
  apply (proj1 (validate_float_array F32 [2; 1; 2]%nat
                  [S754_zero true; S754_infinity false; S754_nan; float_one]
                  ltac:(simpl; lia))).
  simpl. intros f H.
  repeat (destruct H as [<- | H]; [reflexivity|]). destruct H.
Defined.

(** X9. [chunk_shape] fails only on the empty shape.  Otherwise the chunk
    shape has the rank of the array and differs from its shape on axis 0
    at most; for a movie with at least one frame the chunk holds between 1
    and 100 frames, never more than the movie has, and the movie falls
    into [ceil(n / 100)] chunks along the time axis. *)
Theorem chunk_shape_grid (shp : list nat) :
  (shp = [] <-> exists e, chunk_shape shp = inl e) /\
  (forall chunks, chunk_shape shp = inr chunks ->
     length chunks = length shp /\
     tl chunks = tl shp /\
     (hd 0 chunks <= hd 0 shp)%nat /\ (hd 0 chunks <= 100)%nat /\
     ((0 < hd 0 shp)%nat ->
      (0 < hd 0 chunks)%nat /\
      ((hd 0 shp + hd 0 chunks - 1) / hd 0 chunks
       = (hd 0 shp + 99) / 100)%nat)).
Proof.
  split.
  - destruct shp as [|n rest]; simpl; split.
    + intros _. eexists. reflexivity.
    + reflexivity.
    + discriminate.
    + intros (e & He). discriminate.
  - intros chunks H. destruct shp as [|n rest]; [discriminate|].
    assert (chunks = Nat.min 100 n :: rest) as ->
      by (cbn [chunk_shape] in H; congruence).
    cbn [hd tl length].
    split; [reflexivity|]. split; [reflexivity|].
    split; [lia|]. split; [lia|].
    intros Hpos. split; [lia|].
    destruct (Nat.le_gt_cases n 100) as [Hle|Hgt].
    + rewrite Nat.min_r by lia.
      transitivity 1%nat; [|symmetry].
      * symmetry. apply Nat.div_unique with (r := (n - 1)%nat); lia.
      * symmetry. apply Nat.div_unique with (r := (n - 1)%nat); lia.
    + rewrite Nat.min_l by lia. f_equal. lia.
Qed.

Lemma chunk_shape_grid_witness :
  length [100; 64; 64]%nat = length [250; 64; 64]%nat /\
  tl [100; 64; 64]%nat = tl [250; 64; 64]%nat /\
  (100 <= 250)%nat /\ (100 <= 100)%nat /\
  ((0 < 250)%nat ->
   (0 < 100)%nat /\ ((250 + 100 - 1) / 100 = (250 + 99) / 100)%nat).
Proof.
  apply (proj2 (chunk_shape_grid [250; 64; 64]%nat) [100; 64; 64]%nat).
  reflexivity.
Defined.

(** ** [encode] *)

Section CodecProperties.

Variable extract_context :
  pyvalue -> result (pyvalue * pyvalue * pyvalue * pyvalue).
Variable build_path :
  pyvalue -> pyvalue -> pyvalue -> pyvalue -> string -> pyvalue ->
  result (pyvalue * pyvalue).
Variable backend : Type.
Variable get_backend : pyvalue -> result backend.
Variable get_fsmap : backend -> pyvalue -> result string.
Variable generalized_anscombe :
  pyvalue -> spec_float -> spec_float -> spec_float -> result ndarray.
Variable io_fault : store -> io_op -> option exn.
Variable torn_write : store -> io_op -> store.

Local Abbreviation enc_body :=
  (encode_body extract_context build_path backend get_backend get_fsmap
     generalized_anscombe io_fault torn_write).
Local Abbreviation enc :=
  (encode extract_context build_path backend get_backend get_fsmap
     generalized_anscombe io_fault torn_write).
Local Abbreviation dec_body := (decode_body backend get_backend get_fsmap io_fault).
Local Abbreviation dec := (decode backend get_backend get_fsmap io_fault).
Local Abbreviation opens :=
  (opens_artifact backend get_backend get_fsmap io_fault).
Local Abbreviation artifact := (artifact_of_record backend get_backend get_fsmap).

Ltac io_step H :=
  match type of H with
  | context [io_fault ?s ?op] =>
      destruct (io_fault s op) eqn:?; [discriminate H|]
  end;
  cbn [h_loc h_mode] in H;
  rewrite ?lookup_insert_eq in H;
  cbn [za_data za_chunks za_compressor za_attrs] in H;
  rewrite ?insert_insert_eq in H.

(** What a successful [encode] has done. *)
Lemma encode_success value key store_name st st' r :
  enc value key store_name st = (st', inr r) ->
  exists a sc tb fd pk path tok b loc t n rest,
    value = PyArray a /\ validate value = inr tt /\
    extract_context key = inr (sc, tb, fd, pk) /\
    build_path sc tb fd pk ".zarr" store_name = inr (path, tok) /\
    get_backend store_name = inr b /\
    get_fsmap b path = inr loc /\
    generalized_anscombe value float_one float_zero float_zero = inr t /\
    shape a = n :: rest /\
    st' = <[loc := ZarrArray t (Nat.min 100 n :: rest) encode_compressor
                     (encode_attrs (ndarray_dtype a))]> st /\
    r = list_to_map
          [("path", path);
           ("store", store_name);
           ("codec_version", PyStr CODEC_VERSION);
           ("shape", PyList (map (fun n => PyInt (Z.of_nat n)) (shape a)));
           ("dtype", PyStr (dtype_str (ndarray_dtype t)));
           ("transform", PyStr "anscombe")].
Proof.
  intros H. unfold encode, try_except in H.
  destruct (enc_body value key store_name st) as [st1 [e|r1]] eqn:Hb;
    [discriminate|].
  injection H as <- <-.
  unfold encode_body, bind, lift in Hb.
  destruct (validate value) eqn:Hv; [discriminate|].
  destruct (extract_context key) as [|[[[sc tb] fd] pk]] eqn:Hc;
    [discriminate|].
  destruct (build_path sc tb fd pk ".zarr" store_name) as [|[path tok]]
    eqn:Hp; [discriminate|].
  destruct (get_backend store_name) as [|b] eqn:Hbk; [discriminate|].
  destruct (get_fsmap b path) as [|loc] eqn:Hfs; [discriminate|].
  destruct (generalized_anscombe value _ _ _) as [|t] eqn:Ht;
    [discriminate|].
  destruct value as [| | | | | | |a|]; try discriminate Hv.
  cbn [py_shape py_dtype] in Hb.
  destruct (shape a) as [|n rest] eqn:Hs; [discriminate|].
  cbn [chunk_shape] in Hb.
  unfold zarr_save_array, zarr_open, attrs_setitem, ret in Hb.
  do 8 io_step Hb.
  injection Hb as <- <-.
  destruct u.
  exists a, sc, tb, fd, pk, path, tok, b, loc, t, n, rest.
  rewrite Hs. repeat split; reflexivity || assumption.
Qed.

Lemma encode_artifact value key store_name st st' r :
  enc value key store_name st = (st', inr r) ->
  exists a t n rest,
    value = PyArray a /\ validate value = inr tt /\
    shape a = n :: rest /\
    generalized_anscombe value float_one float_zero float_zero = inr t /\
    artifact r st'
      (ZarrArray t (Nat.min 100 n :: rest) encode_compressor
         (encode_attrs (ndarray_dtype a))) /\
    r !! "shape"
    = Some (PyList (map (fun n => PyInt (Z.of_nat n)) (shape a))).
Proof.
  intros H.
  destruct (encode_success _ _ _ _ _ _ H)
    as (a & sc & tb & fd & pk & path & tok & b & loc & t & n & rest
        & -> & Hv & _ & _ & Hb & Hf & Ht & Hs & -> & ->).
  exists a, t, n, rest. repeat split; try assumption.
  - exists b, path, loc. repeat split.
    + exact Hb.
    + exact Hf.
    + apply lookup_insert_eq.
Qed.

(** C3. The chunk shape is [min(100, shape[0])] along axis 0 and the full
    extent along every other axis, and it is the chunk shape of the
    artifact a successful [encode] writes. *)
Theorem chunk_shape_policy :
  (forall n rest, chunk_shape (n :: rest) = inr (Nat.min 100 n :: rest)) /\
  chunk_shape [250; 64; 64]%nat = inr [100; 64; 64]%nat /\
  chunk_shape [40; 64; 64]%nat = inr [40; 64; 64]%nat /\
  (forall value key store_name st st' r,
     enc value key store_name st = (st', inr r) ->
     exists a n rest za,
       value = PyArray a /\ shape a = n :: rest /\ artifact r st' za /\
       za_chunks za = Nat.min 100 n :: rest).
Proof.
  repeat split; try reflexivity.
  intros value key store_name st st' r H.
  destruct (encode_artifact _ _ _ _ _ _ H)
    as (a & t & n & rest & -> & _ & Hs & _ & Ha & _).
  eexists a, n, rest, _. repeat split; [exact Hs | exact Ha | reflexivity].
Qed.

(** C4. After a successful [encode] the artifact's own attributes hold
    the format version, the codec identifier, the three transform
    parameters and the original element type; the parameters recorded
    are the ones the payload was transformed with, and they are gain
    1.0, offset 0.0, variance 0.0. *)
Theorem encode_attributes_record_applied_parameters
    value key store_name st st' r :
  enc value key store_name st = (st', inr r) ->
  exists a za gain offset variance,
    value = PyArray a /\ artifact r st' za /\
    za_attrs za !! "codec_version" = Some (PyStr CODEC_VERSION) /\
    za_attrs za !! "codec_name" = Some (PyStr name) /\
    za_attrs za !! "anscombe_gain" = Some (PyFloat gain) /\
    za_attrs za !! "anscombe_offset" = Some (PyFloat offset) /\
    za_attrs za !! "anscombe_variance" = Some (PyFloat variance) /\
    za_attrs za !! "original_dtype"
    = Some (PyStr (dtype_str (ndarray_dtype a))) /\
    generalized_anscombe value gain offset variance = inr (za_data za) /\
    gain = float_one /\ offset = float_zero /\ variance = float_zero.
Proof.
  intros H.
  destruct (encode_artifact _ _ _ _ _ _ H)
    as (a & t & n & rest & -> & _ & _ & Ht & Ha & _).
  eexists a, _, float_one, float_zero, float_zero.
  split; [reflexivity|]. split; [exact Ha|].
  cbn [za_attrs za_data]. unfold encode_attrs.
  repeat split; try exact Ht;
    repeat first [ apply lookup_insert_eq
                 | rewrite lookup_insert_ne by discriminate ].
Qed.

(** C5. When the transform keeps the shape of its argument, as an
    elementwise transform does, the artifact written by a successful
    [encode] has the shape of the input array, and so has the [shape]
    field of the record returned. *)
Theorem encode_preserves_shape value key store_name st st' r :
  (forall v g o s t a,
     generalized_anscombe v g o s = inr t -> v = PyArray a ->
     shape t = shape a) ->
  enc value key store_name st = (st', inr r) ->
  exists a za,
    value = PyArray a /\ validate value = inr tt /\ artifact r st' za /\
    shape (za_data za) = shape a /\
    r !! "shape"
    = Some (PyList (map (fun n => PyInt (Z.of_nat n)) (shape a))).
Proof.
  intros Hshape H.
  destruct (encode_artifact _ _ _ _ _ _ H)
    as (a & t & n & rest & -> & Hv & _ & Ht & Ha & Hr).
  eexists a, _. repeat split; [exact Hv | exact Ha | | exact Hr].
  cbn [za_data]. exact (Hshape _ _ _ _ _ _ Ht eq_refl).
Qed.

(** C8. When validation fails, [encode] fails with that failure
    (wrapped, like every failure of [encode]) and leaves the store as
    it was; whatever the path builder, the backends, the transform and
    the storage engine would have done, none of them is consulted. *)
Theorem encode_validation_failure_leaves_store value key store_name st e :
  validate value = inl e ->
  enc value key store_name st = (st, inl (encode_error e)) /\
  exn_cause (encode_error e) = Some e.
Proof.
  intros Hv. split; [|reflexivity].
  unfold encode, try_except, encode_body, bind, lift.
  rewrite Hv. reflexivity.
Qed.

Lemma try_except_fails {A} (body : M A) (handler : exn -> exn) st st' e :
  body st = (st', inl e) -> try_except body handler st = (st', inl (handler e)).
Proof. intros H. unfold try_except. now rewrite H. Qed.

Lemma try_except_failed {A} (body : M A) (handler : exn -> exn) st st' e' :
  try_except body handler st = (st', inl e') ->
  exists e, body st = (st', inl e) /\ e' = handler e.
Proof.
  unfold try_except. destruct (body st) as [st1 [e|x]]; [|discriminate].
  intros [= <- <-]. now exists e.
Qed.

(** C7. Whatever fails inside the [try] of [encode] reaches the caller
    as one [DataJointError] whose message starts with the encode prefix
    and whose cause is the original failure, and [encode] fails in no
    other way; stage by stage: validation, addressing, backend
    resolution, transform, write, metadata.  The same holds for
    [decode] with its own prefix, the unsupported-version error
    included. *)
Theorem failures_are_wrapped value key store_name stored dkey st :
  let enc_fails e :=
    snd (enc value key store_name st) = inl (encode_error e) in
  let dec_fails e := dec stored dkey st = (st, inl (decode_error e)) in
  (forall e,
     exn_class (encode_error e) = "DataJointError" /\
     exn_str (encode_error e)
     = "Failed to encode photon movie: " +:+ exn_str e /\
     exn_cause (encode_error e) = Some e /\
     exn_class (decode_error e) = "DataJointError" /\
     exn_str (decode_error e)
     = "Failed to decode photon movie: " +:+ exn_str e /\
     exn_cause (decode_error e) = Some e) /\
  (forall st' e, enc_body value key store_name st = (st', inl e) ->
     enc value key store_name st = (st', inl (encode_error e))) /\
  (forall st' e', enc value key store_name st = (st', inl e') ->
     exists e, enc_body value key store_name st = (st', inl e) /\
               e' = encode_error e) /\
  (forall st' e, dec_body stored dkey st = (st', inl e) ->
     dec stored dkey st = (st', inl (decode_error e))) /\
  (forall st' e', dec stored dkey st = (st', inl e') ->
     exists e, dec_body stored dkey st = (st', inl e) /\
               e' = decode_error e) /\
  (* the stages of encode *)
  (forall e, validate value = inl e -> enc_fails e) /\
  (validate value = inr tt ->
   (forall e, extract_context key = inl e -> enc_fails e) /\
   (forall sc tb fd pk, extract_context key = inr (sc, tb, fd, pk) ->
    (forall e, build_path sc tb fd pk ".zarr" store_name = inl e ->
               enc_fails e) /\
    (forall path tok,
       build_path sc tb fd pk ".zarr" store_name = inr (path, tok) ->
     (forall e, get_backend store_name = inl e -> enc_fails e) /\
     (forall b, get_backend store_name = inr b ->
      (forall e, get_fsmap b path = inl e -> enc_fails e) /\
      (forall loc, get_fsmap b path = inr loc ->
       (forall e,
          generalized_anscombe value float_one float_zero float_zero
          = inl e -> enc_fails e) /\
       (forall t a n rest,
          generalized_anscombe value float_one float_zero float_zero
          = inr t ->
          value = PyArray a -> shape a = n :: rest ->
        let chunks := Nat.min 100 n :: rest in
        let st1 := <[loc := ZarrArray t chunks encode_compressor ∅]> st in
        (forall e, io_fault st (op_save loc t chunks) = Some e ->
                   enc_fails e) /\
        (io_fault st (op_save loc t chunks) = None ->
         (forall e, io_fault st1 (op_open loc mode_rw) = Some e ->
                    enc_fails e) /\
         (io_fault st1 (op_open loc mode_rw) = None ->
          forall e,
            io_fault st1
              (op_attr_set loc "codec_version" (PyStr CODEC_VERSION))
            = Some e -> enc_fails e)))))))) /\
  (* the stages of decode *)
  (forall e, get_backend (dict_get stored "store") = inl e -> dec_fails e) /\
  (forall b, get_backend (dict_get stored "store") = inr b ->
   (stored !! "path" = None -> dec_fails (Exn "KeyError" "'path'" None)) /\
   (forall path, stored !! "path" = Some path ->
    (forall e, get_fsmap b path = inl e -> dec_fails e) /\
    (forall loc, get_fsmap b path = inr loc ->
     (forall e, io_fault st (op_open loc mode_r) = Some e -> dec_fails e) /\
     (io_fault st (op_open loc mode_r) = None ->
      (st !! loc = None ->
       dec_fails (Exn "PathNotFoundError"
                      ("nothing found at path " +:+ loc) None)) /\
      (forall za, st !! loc = Some za ->
       (forall e, io_fault st (op_attr_get loc "codec_version") = Some e ->
                  dec_fails e) /\
       (io_fault st (op_attr_get loc "codec_version") = None ->
        forall s,
          spec_resolved_version (za_attrs za) stored = PyStr s ->
          String.prefix "1." s = false ->
          dec_fails (DataJointError (msg_unsupported s)))))))).
Proof.
  intros enc_fails dec_fails. subst enc_fails dec_fails. cbv beta.
  split; [intros e; repeat split|].
  split; [intros st' e; apply try_except_fails|].
  split; [intros st' e'; apply try_except_failed|].
  split; [intros st' e; apply try_except_fails|].
  split; [intros st' e'; apply try_except_failed|].
  split; [|split; [|split]].
  - intros e Hv. unfold encode, try_except, encode_body, bind, lift.
    now rewrite Hv.
  - intros Hv.
    split; [intros e Hc|intros sc tb fd pk Hc;
    split; [intros e Hp|intros path tok Hp;
    split; [intros e Hb|intros b Hb;
    split; [intros e Hf|intros loc Hf;
    split; [intros e Ht|intros t a n rest Ht -> Hs chunks st1;
    split; [intros e Hw|intros Hw;
    split; [intros e Ho|intros Ho e Hm]]]]]]];
      unfold encode, try_except, encode_body, bind, lift;
      rewrite Hv, Hc; try rewrite Hp; try rewrite Hb; try rewrite Hf;
      try rewrite Ht; try reflexivity;
      cbn [py_shape py_dtype]; rewrite Hs; cbn [chunk_shape];
      unfold zarr_save_array; fold chunks; rewrite Hw; try reflexivity;
      fold st1; unfold zarr_open; rewrite Ho; try reflexivity;
      unfold st1 at 1; rewrite lookup_insert_eq; fold st1;
      unfold attrs_setitem; cbn [h_loc h_mode]; rewrite Hm; reflexivity.
  - intros e Hb. unfold decode, try_except, decode_body, bind, lift.
    now rewrite Hb.
  - intros b Hb.
    split; [intros Hp|intros path Hp;
    split; [intros e Hf|intros loc Hf;
    split; [intros e Ho|intros Ho;
    split; [intros Hl|intros za Hl;
    split; [intros e Hg|intros Hg s Hs Hpre]]]]];
      unfold decode, try_except, decode_body, bind, lift, dict_getitem;
      rewrite Hb, Hp; try reflexivity; rewrite Hf; try reflexivity;
      unfold zarr_open; rewrite Ho; try reflexivity;
      rewrite Hl; try reflexivity;
      unfold resolve_version, attrs_get; cbn [h_loc]; rewrite Hg;
      try reflexivity; rewrite Hl.
    unfold spec_resolved_version in Hs. unfold dict_get_default.
    destruct (za_attrs za !! "codec_version") as [v|]; cbn [default from_option id].
    + subst v. cbn [version_gate]. rewrite Hpre. reflexivity.
    + destruct (stored !! "codec_version") as [v|]; cbn [default from_option id].
      * subst v. cbn [version_gate]. rewrite Hpre. reflexivity.
      * injection Hs as <-. vm_compute in Hpre. discriminate Hpre.
Qed.

(** ** [decode] *)

Lemma resolved_version_default (attrs stored : gmap string pyvalue) :
  default (dict_get_default stored "codec_version" (PyStr "1.0"))
          (attrs !! "codec_version")
  = spec_resolved_version attrs stored.
Proof.
  unfold spec_resolved_version, dict_get_default.
  destruct (attrs !! "codec_version"); [reflexivity|].
  destruct (stored !! "codec_version"); reflexivity.
Qed.

Lemma decode_at_gate stored key st z za :
  opens stored st z za ->
  dec stored key st
  = try_except
      (version_gate z (spec_resolved_version (za_attrs za) stored))
      decode_error st.
Proof.
  intros (b & path & Hb & Hp & Hf & Hm & Ho & Hl & Hg).
  destruct z as [loc mode]. cbn [h_loc h_mode] in *. subst mode.
  unfold decode, try_except, decode_body, bind, lift, dict_getitem.
  rewrite Hb, Hp, Hf. unfold zarr_open. rewrite Ho, Hl.
  unfold resolve_version, attrs_get. cbn [h_loc]. rewrite Hg, Hl.
  rewrite resolved_version_default. reflexivity.
Qed.

(** [decode] hands the store back as it found it. *)
Lemma decode_read_only stored key st : fst (dec stored key st) = st.
Proof.
  unfold decode, try_except, decode_body, bind, lift, dict_getitem,
    zarr_open, resolve_version, attrs_get, version_gate, ret, raise.
  destruct (get_backend _); [reflexivity|].
  destruct (stored !! "path"); [|reflexivity].
  destruct (get_fsmap _ _) as [|loc]; [reflexivity|].
  destruct (io_fault st (op_open loc mode_r)); [reflexivity|].
  destruct (st !! loc) eqn:Hl; [|reflexivity].
  cbn [h_loc].
  destruct (io_fault st (op_attr_get loc "codec_version")); [reflexivity|].
  rewrite Hl.
  destruct (default _ _); try reflexivity.
  destruct (String.prefix "1." s); reflexivity.
Qed.

(** C6. The version checked by [decode] is the artifact's own
    [codec_version] attribute when it has one, else the [codec_version]
    field of the stored record when it has one, else ["1.0"]; and a
    decode leaves nothing behind that a later decode would read: the
    outcome of a decode after an earlier one, with whatever happened to
    the store in between, is its outcome without the earlier one. *)
Theorem version_resolution_priority stored key st z za :
  opens stored st z za ->
  resolve_version io_fault z stored st
  = (st, inr (spec_resolved_version (za_attrs za) stored)) /\
  dec stored key st
  = try_except
      (version_gate z (spec_resolved_version (za_attrs za) stored))
      decode_error st /\
  (forall stored0 key0 st0 (change : store -> store),
     dec stored key (change (fst (dec stored0 key0 st0)))
     = dec stored key (change st0)).
Proof.
  intros H. split; [|split].
  - destruct H as (b & path & _ & _ & _ & _ & _ & Hl & Hg).
    unfold resolve_version, attrs_get. rewrite Hg, Hl.
    now rewrite resolved_version_default.
  - now apply decode_at_gate.
  - intros stored0 key0 st0 change. now rewrite decode_read_only.
Qed.

(** C10. [decode] does not look at [key]: with any two keys it resolves,
    opens and checks alike and ends alike. *)
Theorem decode_ignores_key stored k1 k2 st :
  decode_body backend get_backend get_fsmap io_fault stored k1 st
  = decode_body backend get_backend get_fsmap io_fault stored k2 st /\
  decode backend get_backend get_fsmap io_fault stored k1 st
  = decode backend get_backend get_fsmap io_fault stored k2 st.
Proof. split; reflexivity. Qed.

Lemma prefix_1_dot_inv (s : string) :
  String.prefix "1." s = true -> exists rest, s = "1." +:+ rest.
Proof.
  destruct s as [|c1 [|c2 rest]]; cbn [String.prefix]; try discriminate.
  - destruct (ascii_dec _ c1); discriminate.
  - destruct (ascii_dec _ c1) as [<-|]; [|discriminate].
    destruct (ascii_dec _ c2) as [<-|]; [|discriminate].
    intros _. now exists rest.
Qed.

(** What [startswith("1.")] accepts has major version 1. *)
Lemma prefix_1_dot_major (s : string) :
  String.prefix "1." s = true -> spec_major_version s = Some 1%nat.
Proof. intros H. destruct (prefix_1_dot_inv s H) as (rest & ->). reflexivity. Qed.

Lemma unsupported_names_version (s : string) :
  names (exn_str (decode_error (DataJointError (msg_unsupported s)))) s.
Proof.
  exists "Failed to decode photon movie: Unsupported photon codec version: ",
         ". Upgrade dj-photon-codecs or migrate data.".
  reflexivity.
Qed.

(** C1, as the code has it.  When [decode] reaches the version check
    with a resolved version that is a string: a version that starts
    with ["1."] is accepted and the opened handle returned; any other
    version fails with an error that names it; a version whose major
    number is not 1 is never accepted; ["1.0"] decodes and ["2.0"]
    fails naming ["2.0"]. *)
Theorem version_gate_accepts_1_dot stored key st z za s :
  opens stored st z za ->
  spec_resolved_version (za_attrs za) stored = PyStr s ->
  (String.prefix "1." s = true -> dec stored key st = (st, inr z)) /\
  (String.prefix "1." s = false ->
   dec stored key st
   = (st, inl (decode_error (DataJointError (msg_unsupported s)))) /\
   names (exn_str (decode_error (DataJointError (msg_unsupported s)))) s) /\
  (spec_major_version s <> Some 1%nat -> String.prefix "1." s = false) /\
  (s = "1.0" -> dec stored key st = (st, inr z)) /\
  (s = "2.0" ->
   dec stored key st
   = (st, inl (decode_error (DataJointError (msg_unsupported "2.0")))) /\
   names (exn_str (decode_error (DataJointError (msg_unsupported "2.0"))))
         "2.0").
Proof.
  intros Ho Hs.
  pose proof (decode_at_gate stored key st z za Ho) as Hd.
  rewrite Hs in Hd. unfold try_except in Hd. cbn [version_gate] in Hd.
  assert (String.prefix "1." s = true -> dec stored key st = (st, inr z))
    as Hacc.
  { intros Hp. rewrite Hd, Hp. reflexivity. }
  assert (String.prefix "1." s = false ->
          dec stored key st
          = (st, inl (decode_error (DataJointError (msg_unsupported s)))))
    as Hrej.
  { intros Hp. rewrite Hd, Hp. reflexivity. }
  split; [exact Hacc|].
  split; [intros Hp; split; [now apply Hrej | apply unsupported_names_version]|].
  split.
  { intros Hm. destruct (String.prefix "1." s) eqn:Hp; [|reflexivity].
    apply prefix_1_dot_major in Hp. contradiction. }
  split.
  - intros ->. now apply Hacc.
  - intros ->. split; [now apply Hrej | apply unsupported_names_version].
Qed.

(** ** Beyond the contract: how [encode] and [decode] fit together *)

Lemma encode_attrs_version (d : dtype) :
  encode_attrs d !! "codec_version" = Some (PyStr CODEC_VERSION).
Proof.
  unfold encode_attrs.
  repeat first [ apply lookup_insert_eq
               | rewrite lookup_insert_ne by discriminate ].
Qed.

(** X2. [encode] returns when its stages do: for an array that passes
    [validate], a context, path, backend and mapper that resolve, a
    transform that returns and a storage engine that does not fail,
    [encode] yields the record and leaves at the mapper's location the
    transformed array with its chunk shape, compressor and six attributes.
    In particular [value.shape[0]] cannot raise: validation has ensured
    three axes. *)
Theorem encode_succeeds a key store_name st sc tb fd pk path tok b loc t :
  validate (PyArray a) = inr tt ->
  extract_context key = inr (sc, tb, fd, pk) ->
  build_path sc tb fd pk ".zarr" store_name = inr (path, tok) ->
  get_backend store_name = inr b ->
  get_fsmap b path = inr loc ->
  generalized_anscombe (PyArray a) float_one float_zero float_zero = inr t ->
  (forall s op, io_fault s op = None) ->
  exists n rest,
    shape a = n :: rest /\
    enc (PyArray a) key store_name st
    = (<[loc := ZarrArray t (Nat.min 100 n :: rest) encode_compressor
                  (encode_attrs (ndarray_dtype a))]> st,
       inr (list_to_map
              [("path", path);
               ("store", store_name);
               ("codec_version", PyStr CODEC_VERSION);
               ("shape", PyList (map (fun n => PyInt (Z.of_nat n)) (shape a)));
               ("dtype", PyStr (dtype_str (ndarray_dtype t)));
               ("transform", PyStr "anscombe")])).
Proof.
  intros Hv Hc Hp Hb Hf Ht Hio.
  destruct (proj1 (validate_accepts _) Hv) as (a' & [= <-] & _ & Hn & _).
  unfold ndim in Hn. destruct (shape a) as [|n rest] eqn:Hs; [simpl in Hn; lia|].
  exists n, rest. split; [reflexivity|].
  unfold encode, try_except, encode_body, bind, lift.
  rewrite Hv, Hc, Hp, Hb, Hf, Ht. cbn [py_shape py_dtype]. rewrite Hs.
  cbn [chunk_shape].
  unfold zarr_save_array, zarr_open, attrs_setitem, ret.
  repeat (rewrite Hio; cbn [h_loc h_mode];
          rewrite ?lookup_insert_eq;
          cbn [za_data za_chunks za_compressor za_attrs];
          rewrite ?insert_insert_eq).
  reflexivity.
Qed.

(** X1. What [encode] has written, [decode] opens: given the record a
    successful [encode] returned and the store it left, [decode] (with any
    key, on an engine that reads without failing) returns a read-only
    handle on the artifact holding the transformed array, and leaves the
    store as it is. *)
Theorem encode_then_decode value key store_name st st' r key' :
  enc value key store_name st = (st', inr r) ->
  (forall loc, io_fault st' (op_open loc mode_r) = None) ->
  (forall loc k, io_fault st' (op_attr_get loc k) = None) ->
  exists z za,
    dec r key' st' = (st', inr z) /\
    h_mode z = mode_r /\ st' !! h_loc z = Some za /\
    generalized_anscombe value float_one float_zero float_zero
    = inr (za_data za).
Proof.
  intros H Hopen Hget.
  destruct (encode_success _ _ _ _ _ _ H)
    as (a & sc & tb & fd & pk & path & tok & b & loc & t & n & rest
        & -> & Hv & _ & _ & Hb & Hf & Ht & Hs & -> & ->).
  set (za := ZarrArray t (Nat.min 100 n :: rest) encode_compressor
                (encode_attrs (ndarray_dtype a))).
  exists (Handle loc mode_r), za.
  split; [|split; [reflexivity|split; [apply lookup_insert_eq|exact Ht]]].
  rewrite (decode_at_gate _ key' _ (Handle loc mode_r) za).
  - unfold spec_resolved_version, za. cbn [za_attrs].
    rewrite encode_attrs_version. reflexivity.
  - exists b, path. cbn [h_loc h_mode].
    split; [exact Hb|]. split; [reflexivity|]. split; [exact Hf|].
    split; [reflexivity|]. split; [apply Hopen|].
    split; [apply lookup_insert_eq|apply Hget].
Qed.

(** X3. A successful [encode] writes at one location only, the one its
    record resolves to; every other array in the store is as it was. *)
Theorem encode_touches_one_location value key store_name st st' r :
  enc value key store_name st = (st', inr r) ->
  exists b path loc,
    get_backend (dict_get r "store") = inr b /\
    r !! "path" = Some path /\
    get_fsmap b path = inr loc /\
    is_Some (st' !! loc) /\
    forall other, other <> loc -> st' !! other = st !! other.
Proof.
  intros H.
  destruct (encode_success _ _ _ _ _ _ H)
    as (a & sc & tb & fd & pk & path & tok & b & loc & t & n & rest
        & -> & _ & _ & _ & Hb & Hf & _ & _ & -> & ->).
  exists b, path, loc. split; [exact Hb|]. split; [reflexivity|].
  split; [exact Hf|]. split.
  - rewrite lookup_insert_eq. eauto.
  - intros other Hne. apply lookup_insert_ne. congruence.
Qed.


(** X10. The record agrees with the artifact: its [codec_version] is the
    artifact's version attribute, its [dtype] is the element type of the
    stored (transformed) array while the attribute [original_dtype] keeps
    that of the input, its [store] is the store name given, and it has
    these six fields and no other. *)
Theorem encode_record_matches_artifact value key store_name st st' r :
  enc value key store_name st = (st', inr r) ->
  exists a za,
    value = PyArray a /\ artifact r st' za /\
    r !! "codec_version" = za_attrs za !! "codec_version" /\
    r !! "dtype" = Some (PyStr (dtype_str (ndarray_dtype (za_data za)))) /\
    za_attrs za !! "original_dtype"
    = Some (PyStr (dtype_str (ndarray_dtype a))) /\
    r !! "store" = Some store_name /\
    r !! "transform" = Some (PyStr "anscombe") /\
    dom r = list_to_set ["path"; "store"; "codec_version"; "shape"; "dtype";
                         "transform"].
Proof.
  intros H.
  destruct (encode_success _ _ _ _ _ _ H)
    as (a & sc & tb & fd & pk & path & tok & b & loc & t & n & rest
        & -> & _ & _ & _ & Hb & Hf & _ & _ & -> & ->).
  eexists a, _. split; [reflexivity|]. split.
  { exists b, path, loc. split; [exact Hb|]. split; [reflexivity|].
    split; [exact Hf|]. apply lookup_insert_eq. }
  cbn [za_attrs za_data].
  split; [now rewrite encode_attrs_version|].
  split; [reflexivity|].
  split; [unfold encode_attrs; apply lookup_insert_eq|].
  split; [reflexivity|]. split; [reflexivity|].
  rewrite dom_list_to_map_L. reflexivity.
Qed.

Lemma decode_success_inv stored key st st' z :
  dec stored key st = (st', inr z) ->
  st' = st /\
  exists za s,
    opens stored st z za /\
    spec_resolved_version (za_attrs za) stored = PyStr s /\
    String.prefix "1." s = true.
Proof.
  intros H. unfold decode, try_except in H.
  destruct (dec_body stored key st) as [st1 [e|z1]] eqn:Hb; [discriminate|].
  injection H as <- <-.
  unfold decode_body, bind, lift, dict_getitem in Hb.
  destruct (get_backend _) as [|b] eqn:Hbk; [discriminate|].
  destruct (stored !! "path") as [path|] eqn:Hp; [|discriminate].
  destruct (get_fsmap b path) as [|loc] eqn:Hf; [discriminate|].
  unfold zarr_open in Hb.
  destruct (io_fault st (op_open loc mode_r)) eqn:Ho; [discriminate|].
  destruct (st !! loc) as [za|] eqn:Hl; [|discriminate].
  unfold resolve_version, attrs_get in Hb. cbn [h_loc] in Hb.
  destruct (io_fault st (op_attr_get loc "codec_version")) eqn:Hg;
    [discriminate|].
  rewrite Hl, resolved_version_default in Hb.
  destruct (spec_resolved_version (za_attrs za) stored) eqn:Hv;
    cbn [version_gate] in Hb; unfold raise, ret in Hb; try discriminate Hb.
  destruct (String.prefix "1." s) eqn:Hpre; [|discriminate].
  injection Hb as <- <-.
  split; [reflexivity|]. exists za, s.
  split; [|split; [exact Hv | exact Hpre]].
  exists b, path. cbn [h_loc h_mode]. repeat split; assumption.
Qed.

(** X5. [decode] returns a handle exactly when the backend resolves, the
    record has a path, the array exists and opens, its attributes can be
    read, and the resolved version is a string that starts with ["1."];
    the store is then unchanged and the handle is the read-only one on
    that array. *)
Theorem decode_returns_iff stored key st st' z :
  dec stored key st = (st', inr z) <->
  st' = st /\
  exists za s,
    opens stored st z za /\
    spec_resolved_version (za_attrs za) stored = PyStr s /\
    String.prefix "1." s = true.
Proof.
  split.
  - apply decode_success_inv.
  - intros (-> & za & s & Ho & Hv & Hpre).
    rewrite (decode_at_gate stored key st z za Ho), Hv.
    unfold try_except. cbn [version_gate]. rewrite Hpre. reflexivity.
Qed.

(** X6. A version that is not a string is not reported as unsupported:
    when the resolved version is a number, a null, a list, the call of
    [startswith] raises [AttributeError], and [decode] fails with that
    error wrapped, the store unchanged. *)
Theorem decode_non_string_version stored key st z za v :
  opens stored st z za ->
  spec_resolved_version (za_attrs za) stored = v ->
  (forall s, v <> PyStr s) ->
  dec stored key st
  = (st, inl (decode_error (no_attribute v "startswith"))) /\
  exn_class (no_attribute v "startswith") = "AttributeError" /\
  exn_str (no_attribute v "startswith")
  = "'" +:+ type_name v +:+ "' object has no attribute 'startswith'".
Proof.
  intros Ho Hv Hns.
  split; [|split; reflexivity].
  rewrite (decode_at_gate stored key st z za Ho), Hv.
  unfold try_except.
  destruct v; try reflexivity.
  now destruct (Hns s).
Qed.

(** X7. Of the stored record [decode] reads three things: the store name
    (absent counts as [None]), the path, and the version field (absent
    counts as ["1.0"]).  Two records that agree on these decode alike,
    whatever their shape, dtype or transform fields say. *)
Theorem decode_reads_three_fields s1 s2 key st :
  dict_get s1 "store" = dict_get s2 "store" ->
  s1 !! "path" = s2 !! "path" ->
  dict_get_default s1 "codec_version" (PyStr "1.0")
  = dict_get_default s2 "codec_version" (PyStr "1.0") ->
  dec s1 key st = dec s2 key st.
Proof.
  intros Hs Hp Hv.
  unfold decode, decode_body, resolve_version, dict_getitem.
  rewrite Hs, Hp, Hv. reflexivity.
Qed.

(** X11. [encode] does not undo a write: when the array has been saved
    and reopening it for the attributes fails, [encode] fails with that
    error wrapped and the store keeps the array, without any attribute.
    A later [decode] of a record for that cell that carries no version
    field opens it as a version ["1.0"] artifact. *)
Theorem encode_failure_after_write_leaves_artifact
    a key store_name st sc tb fd pk path tok b loc t n rest e :
  validate (PyArray a) = inr tt ->
  extract_context key = inr (sc, tb, fd, pk) ->
  build_path sc tb fd pk ".zarr" store_name = inr (path, tok) ->
  get_backend store_name = inr b ->
  get_fsmap b path = inr loc ->
  generalized_anscombe (PyArray a) float_one float_zero float_zero = inr t ->
  shape a = n :: rest ->
  io_fault st (op_save loc t (Nat.min 100 n :: rest)) = None ->
  io_fault
    (<[loc := ZarrArray t (Nat.min 100 n :: rest) encode_compressor ∅]> st)
    (op_open loc mode_rw) = Some e ->
  let st1 :=
    <[loc := ZarrArray t (Nat.min 100 n :: rest) encode_compressor ∅]> st in
  enc (PyArray a) key store_name st = (st1, inl (encode_error e)) /\
  (forall stored dkey,
     dict_get stored "store" = store_name ->
     stored !! "path" = Some path ->
     stored !! "codec_version" = None ->
     io_fault st1 (op_open loc mode_r) = None ->
     io_fault st1 (op_attr_get loc "codec_version") = None ->
     dec stored dkey st1 = (st1, inr (Handle loc mode_r))).
Proof.
  intros Hv Hc Hp Hb Hf Ht Hs Hw Ho st1. split.
  - unfold encode, try_except, encode_body, bind, lift.
    rewrite Hv, Hc, Hp, Hb, Hf, Ht. cbn [py_shape]. rewrite Hs.
    cbn [chunk_shape]. unfold zarr_save_array. rewrite Hw.
    unfold zarr_open. fold st1 in Ho |- *. rewrite Ho. reflexivity.
  - intros stored dkey Hstore Hpath Hver Hro Hget.
    rewrite (decode_at_gate stored dkey st1 (Handle loc mode_r)
               (ZarrArray t (Nat.min 100 n :: rest) encode_compressor ∅)).
    + unfold spec_resolved_version. cbn [za_attrs].
      rewrite lookup_empty, Hver. reflexivity.
    + exists b, path. cbn [h_loc h_mode]. rewrite Hstore.
      repeat split; try assumption. apply lookup_insert_eq.
Qed.

(** X12. [decode] never writes: returning or raising, it hands the store
    back as it received it, and a handle it returns is opened read-only
    on an array that exists. *)
Theorem decode_never_writes stored key st :
  fst (decode backend get_backend get_fsmap io_fault stored key st) = st /\
  forall z,
    snd (decode backend get_backend get_fsmap io_fault stored key st) = inr z ->
    h_mode z = mode_r /\ is_Some (st !! h_loc z).
Proof.
  split; [apply decode_read_only|].
  intros z Hz.
  destruct (dec stored key st) as [st' r] eqn:Hd. cbn [snd] in Hz. subst r.
  destruct (decode_success_inv _ _ _ _ _ Hd)
    as (_ & za & s & (b & path & _ & _ & _ & Hm & _ & Hl & _) & _).
  split; [exact Hm|]. rewrite Hl. eauto.
Qed.

(** X13. [encode] writes nothing before every earlier stage has
    succeeded: whatever it returns, either the store is untouched, or the
    value passed [validate], the context, the path, the backend and the
    mapper resolved, and the transform returned. *)
Theorem encode_writes_after_all_stages value key store_name st :
  fst (enc value key store_name st) = st \/
  exists a sc tb fd pk path tok b loc t,
    value = PyArray a /\ validate value = inr tt /\
    extract_context key = inr (sc, tb, fd, pk) /\
    build_path sc tb fd pk ".zarr" store_name = inr (path, tok) /\
    get_backend store_name = inr b /\
    get_fsmap b path = inr loc /\
    generalized_anscombe value float_one float_zero float_zero = inr t.
Proof.
  unfold encode, try_except, encode_body, bind, lift.
  destruct (validate value) as [|[]] eqn:Hv; [now left|].
  destruct (extract_context key) as [|[[[sc tb] fd] pk]] eqn:Hc; [now left|].
  destruct (build_path sc tb fd pk ".zarr" store_name) as [|[path tok]]
    eqn:Hp; [now left|].
  destruct (get_backend store_name) as [|b] eqn:Hb; [now left|].
  destruct (get_fsmap b path) as [|loc] eqn:Hf; [now left|].
  destruct (generalized_anscombe value _ _ _) as [|t] eqn:Ht; [now left|].
  destruct (proj1 (validate_accepts _) Hv) as (a & -> & _).
  right. exists a, sc, tb, fd, pk, path, tok, b, loc, t.
  repeat split; assumption.
Qed.

(** X14. An array of text, bytes, [datetime64] or structured elements
    with three or more dimensions is refused, but by no descriptive error:
    [validate] lets the [TypeError] of [value < 0] through, and [encode]
    reports it wrapped like any other failure, the store untouched. *)
Theorem validate_unordered_array_raises a key store_name st :
  numeric_dtype (ndarray_dtype a) = false ->
  ndarray_dtype a <> dt_object ->
  (3 <= ndim a)%nat ->
  validate (PyArray a) = inl no_less_loop /\
  exn_class no_less_loop = "TypeError" /\
  enc (PyArray a) key store_name st = (st, inl (encode_error no_less_loop)).
Proof.
  intros Hnum Hd Hn.
  assert (validate (PyArray a) = inl no_less_loop) as Hv.
  { simpl.
    destruct (dtype_eqb _ _) eqn:Ed.
    { apply dtype_eqb_object in Ed. contradiction. }
    destruct (ndim a <? 3)%nat eqn:En.
    { apply Nat.ltb_lt in En. lia. }
    assert (any_lt_zero (data a) = inl no_less_loop) as ->
      by (apply any_lt_zero_raises; auto).
    reflexivity. }
  split; [exact Hv|]. split; [reflexivity|].
  unfold encode, try_except, encode_body, bind, lift.
  rewrite Hv. reflexivity.
Qed.

End CodecProperties.

(** ** The codec run on a concrete host *)

Lemma demo_encode_movie :
  Demo.encode (PyArray Demo.movie) Demo.key1 PyNone ∅
  = (Demo.encoded_store, inr Demo.encoded_record).
Proof. vm_compute. reflexivity. Qed.

Lemma demo_anscombe_keeps_shape v g o s t a :
  Demo.generalized_anscombe v g o s = inr t -> v = PyArray a ->
  shape t = shape a.
Proof. intros H ->. injection H as <-. reflexivity. Qed.

Lemma version_gate_accepts_1_dot_witness :
  Demo.decode Demo.record1 PyNone (Demo.artifact (PyStr "1.5"))
  = (Demo.artifact (PyStr "1.5"), inr Demo.handle1).
Proof.
  refine (proj1 (version_gate_accepts_1_dot string Demo.get_backend
                   Demo.get_fsmap Demo.io_fault Demo.record1 PyNone
                   (Demo.artifact (PyStr "1.5")) Demo.handle1
                   (Demo.declared (PyStr "1.5")) "1.5" _ _) _).
  - exists "file:///data", (PyStr Demo.path1).
    repeat split; vm_compute; reflexivity.
  - vm_compute. reflexivity.
  - vm_compute. reflexivity.
Defined.

(** C1, as stated, fails: the version ["1"] has the major version number of
    the baseline ["1.0"], and [decode] refuses it. *)
Lemma version_1_without_minor_is_refused :
  spec_major_version "1" = spec_major_version "1.0" /\
  spec_resolved_version (za_attrs (Demo.declared (PyStr "1"))) Demo.record1
  = PyStr "1" /\
  Demo.decode Demo.record1 PyNone (Demo.artifact (PyStr "1"))
  = (Demo.artifact (PyStr "1"),
     inl (decode_error (DataJointError (msg_unsupported "1")))).
Proof. repeat split; vm_compute; reflexivity. Qed.

Lemma chunk_shape_policy_witness :
  exists a n rest za,
    PyArray Demo.movie = PyArray a /\ shape a = n :: rest /\
    artifact_of_record string Demo.get_backend Demo.get_fsmap
      Demo.encoded_record Demo.encoded_store za /\
    za_chunks za = Nat.min 100 n :: rest.
Proof.
  apply (proj2 (proj2 (proj2
           (chunk_shape_policy Demo.extract_context Demo.build_path string
              Demo.get_backend Demo.get_fsmap Demo.generalized_anscombe
              Demo.io_fault Demo.torn_write)))
           (PyArray Demo.movie) Demo.key1 PyNone ∅).
  vm_compute. reflexivity.
Defined.

Lemma encode_attributes_record_applied_parameters_witness :
  exists a za gain offset variance,
    PyArray Demo.movie = PyArray a /\
    artifact_of_record string Demo.get_backend Demo.get_fsmap
      Demo.encoded_record Demo.encoded_store za /\
    za_attrs za !! "codec_version" = Some (PyStr CODEC_VERSION) /\
    za_attrs za !! "codec_name" = Some (PyStr name) /\
    za_attrs za !! "anscombe_gain" = Some (PyFloat gain) /\
    za_attrs za !! "anscombe_offset" = Some (PyFloat offset) /\
    za_attrs za !! "anscombe_variance" = Some (PyFloat variance) /\
    za_attrs za !! "original_dtype"
    = Some (PyStr (dtype_str (ndarray_dtype a))) /\
    Demo.generalized_anscombe (PyArray Demo.movie) gain offset variance
    = inr (za_data za) /\
    gain = float_one /\ offset = float_zero /\ variance = float_zero.
Proof.
  apply (encode_attributes_record_applied_parameters Demo.extract_context
           Demo.build_path string Demo.get_backend Demo.get_fsmap
           Demo.generalized_anscombe Demo.io_fault Demo.torn_write
           (PyArray Demo.movie) Demo.key1 PyNone ∅).
  vm_compute. reflexivity.
Defined.

Lemma encode_preserves_shape_witness :
  exists a za,
    PyArray Demo.movie = PyArray a /\ validate (PyArray Demo.movie) = inr tt /\
    artifact_of_record string Demo.get_backend Demo.get_fsmap
      Demo.encoded_record Demo.encoded_store za /\
    shape (za_data za) = shape a /\
    Demo.encoded_record !! "shape"
    = Some (PyList (map (fun n => PyInt (Z.of_nat n)) (shape a))).
Proof.
  apply (encode_preserves_shape Demo.extract_context Demo.build_path string
           Demo.get_backend Demo.get_fsmap Demo.generalized_anscombe
           Demo.io_fault Demo.torn_write
           (PyArray Demo.movie) Demo.key1 PyNone ∅).
  - exact demo_anscombe_keeps_shape.
  - vm_compute. reflexivity.
Defined.

Lemma version_resolution_priority_witness :
  resolve_version Demo.io_fault Demo.handle1 Demo.record1
    (Demo.artifact (PyStr "2.0"))
  = (Demo.artifact (PyStr "2.0"), inr (PyStr "2.0")).
Proof.
  refine (proj1 (version_resolution_priority string Demo.get_backend
                  Demo.get_fsmap Demo.io_fault Demo.record1 PyNone
                  (Demo.artifact (PyStr "2.0")) Demo.handle1
                  (Demo.declared (PyStr "2.0")) _)).
  exists "file:///data", (PyStr Demo.path1).
  repeat split; vm_compute; reflexivity.
Defined.

Lemma failures_are_wrapped_witness :
  snd (Demo.encode (PyArray Demo.frame) Demo.key1 PyNone ∅)
  = inl (encode_error (DataJointError (msg_ndim 2))).
Proof.
  apply (proj1 (proj2 (proj2 (proj2 (proj2 (proj2
           (failures_are_wrapped Demo.extract_context Demo.build_path string
              Demo.get_backend Demo.get_fsmap Demo.generalized_anscombe
              Demo.io_fault Demo.torn_write
              (PyArray Demo.frame) Demo.key1 PyNone Demo.record1 PyNone
              ∅))))))).
  reflexivity.
Defined.

Lemma encode_validation_failure_leaves_store_witness :
  Demo.encode (PyArray Demo.frame) Demo.key1 PyNone Demo.encoded_store
  = (Demo.encoded_store, inl (encode_error (DataJointError (msg_ndim 2)))) /\
  exn_cause (encode_error (DataJointError (msg_ndim 2)))
  = Some (DataJointError (msg_ndim 2)).
Proof.
  apply (encode_validation_failure_leaves_store Demo.extract_context
           Demo.build_path string Demo.get_backend Demo.get_fsmap
           Demo.generalized_anscombe Demo.io_fault Demo.torn_write).
  reflexivity.
Defined.

(** ** The further properties on the concrete host *)

Lemma encode_succeeds_witness :
  exists n rest,
    shape Demo.movie = n :: rest /\
    Demo.encode (PyArray Demo.movie) Demo.key1 PyNone ∅
    = (<[Demo.loc1 := ZarrArray Demo.transformed_movie (Nat.min 100 n :: rest)
                        encode_compressor
                        (encode_attrs (ndarray_dtype Demo.movie))]> ∅,
       inr (list_to_map
              [("path", PyStr Demo.path1);
               ("store", PyNone);
               ("codec_version", PyStr CODEC_VERSION);
               ("shape", PyList (map (fun n => PyInt (Z.of_nat n))
                                     (shape Demo.movie)));
               ("dtype", PyStr (dtype_str (ndarray_dtype
                                             Demo.transformed_movie)));
               ("transform", PyStr "anscombe")])).
Proof.
  apply (encode_succeeds Demo.extract_context Demo.build_path string
           Demo.get_backend Demo.get_fsmap Demo.generalized_anscombe
           Demo.io_fault Demo.torn_write
           Demo.movie Demo.key1 PyNone ∅
           (PyStr "calcium_imaging") (PyStr "recording") (PyStr "movie")
           Demo.key1 (PyStr Demo.path1) (PyStr "token") "file:///data"
           Demo.loc1 Demo.transformed_movie);
    vm_compute; reflexivity.
Defined.

Lemma encode_then_decode_witness :
  exists z za,
    Demo.decode Demo.encoded_record (PyInt 7) Demo.encoded_store
    = (Demo.encoded_store, inr z) /\
    h_mode z = mode_r /\ Demo.encoded_store !! h_loc z = Some za /\
    Demo.generalized_anscombe (PyArray Demo.movie) float_one float_zero
      float_zero
    = inr (za_data za).
Proof.
  apply (encode_then_decode Demo.extract_context Demo.build_path string
           Demo.get_backend Demo.get_fsmap Demo.generalized_anscombe
           Demo.io_fault Demo.torn_write
           (PyArray Demo.movie) Demo.key1 PyNone ∅).
  - vm_compute. reflexivity.
  - intros loc. reflexivity.
  - intros loc k. reflexivity.
Defined.

Lemma encode_touches_one_location_witness :
  exists b path loc,
    Demo.get_backend (dict_get Demo.encoded_record "store") = inr b /\
    Demo.encoded_record !! "path" = Some path /\
    Demo.get_fsmap b path = inr loc /\
    is_Some (Demo.encoded_store !! loc) /\
    forall other, other <> loc ->
      Demo.encoded_store !! other = (∅ : store) !! other.
Proof.
  apply (encode_touches_one_location Demo.extract_context Demo.build_path
           string Demo.get_backend Demo.get_fsmap Demo.generalized_anscombe
           Demo.io_fault Demo.torn_write
           (PyArray Demo.movie) Demo.key1 PyNone ∅).
  vm_compute. reflexivity.
Defined.


Lemma encode_record_matches_artifact_witness :
  exists a za,
    PyArray Demo.movie = PyArray a /\
    artifact_of_record string Demo.get_backend Demo.get_fsmap
      Demo.encoded_record Demo.encoded_store za /\
    Demo.encoded_record !! "codec_version" = za_attrs za !! "codec_version" /\
    Demo.encoded_record !! "dtype"
    = Some (PyStr (dtype_str (ndarray_dtype (za_data za)))) /\
    za_attrs za !! "original_dtype"
    = Some (PyStr (dtype_str (ndarray_dtype a))) /\
    Demo.encoded_record !! "store" = Some PyNone /\
    Demo.encoded_record !! "transform" = Some (PyStr "anscombe") /\
    dom Demo.encoded_record
    = list_to_set ["path"; "store"; "codec_version"; "shape"; "dtype";
                   "transform"].
Proof.
  apply (encode_record_matches_artifact Demo.extract_context Demo.build_path
           string Demo.get_backend Demo.get_fsmap Demo.generalized_anscombe
           Demo.io_fault Demo.torn_write
           (PyArray Demo.movie) Demo.key1 PyNone ∅).
  vm_compute. reflexivity.
Defined.

Lemma decode_returns_iff_witness :
  Demo.decode Demo.record1 PyNone (Demo.artifact (PyStr "1.7"))
  = (Demo.artifact (PyStr "1.7"), inr Demo.handle1).
Proof.
  apply (proj2 (decode_returns_iff string Demo.get_backend Demo.get_fsmap
                  Demo.io_fault Demo.record1 PyNone
                  (Demo.artifact (PyStr "1.7")) (Demo.artifact (PyStr "1.7"))
                  Demo.handle1)).
  split; [reflexivity|].
  exists (Demo.declared (PyStr "1.7")), "1.7".
  split; [|split; vm_compute; reflexivity].
  exists "file:///data", (PyStr Demo.path1).
  repeat split; vm_compute; reflexivity.
Defined.

Lemma decode_non_string_version_witness :
  Demo.decode Demo.record1 PyNone Demo.numbered
  = (Demo.numbered,
     inl (decode_error (no_attribute (PyInt 1) "startswith"))) /\
  exn_class (no_attribute (PyInt 1) "startswith") = "AttributeError" /\
  exn_str (no_attribute (PyInt 1) "startswith")
  = "'int' object has no attribute 'startswith'".
Proof.
  refine (decode_non_string_version string Demo.get_backend Demo.get_fsmap
            Demo.io_fault Demo.record1 PyNone Demo.numbered Demo.handle1
            (Demo.declared (PyInt 1)) (PyInt 1) _ _ _).
  - exists "file:///data", (PyStr Demo.path1).
    repeat split; vm_compute; reflexivity.
  - vm_compute. reflexivity.
  - intros s. discriminate.
Defined.

Lemma decode_reads_three_fields_witness :
  Demo.decode Demo.record1 PyNone Demo.encoded_store
  = Demo.decode Demo.encoded_record PyNone Demo.encoded_store.
Proof.
  apply (decode_reads_three_fields string Demo.get_backend Demo.get_fsmap
           Demo.io_fault Demo.record1 Demo.encoded_record PyNone
           Demo.encoded_store);
    vm_compute; reflexivity.
Defined.

Lemma encode_failure_after_write_leaves_artifact_witness :
  encode Demo.extract_context Demo.build_path string Demo.get_backend
    Demo.get_fsmap Demo.generalized_anscombe Demo.no_reopen Demo.torn_write
    (PyArray Demo.movie) Demo.key1 PyNone ∅
  = (Demo.bare_artifact,
     inl (encode_error (Exn "PermissionError" "Permission denied" None))) /\
  decode string Demo.get_backend Demo.get_fsmap Demo.no_reopen
    Demo.record1 PyNone Demo.bare_artifact
  = (Demo.bare_artifact, inr Demo.handle1).
Proof.
  pose proof (encode_failure_after_write_leaves_artifact
                Demo.extract_context Demo.build_path string Demo.get_backend
                Demo.get_fsmap Demo.generalized_anscombe Demo.no_reopen
                Demo.torn_write
                Demo.movie Demo.key1 PyNone ∅
                (PyStr "calcium_imaging") (PyStr "recording") (PyStr "movie")
                Demo.key1 (PyStr Demo.path1) (PyStr "token") "file:///data"
                Demo.loc1 Demo.transformed_movie 3%nat [1; 2]%nat
                (Exn "PermissionError" "Permission denied" None)
                eq_refl eq_refl eq_refl eq_refl eq_refl eq_refl eq_refl
                eq_refl eq_refl) as [Henc Hdec].
  split.
  - exact Henc.
  - apply (Hdec Demo.record1 PyNone); reflexivity.
Defined.

Lemma decode_never_writes_witness :
  h_mode Demo.handle1 = mode_r /\
  is_Some (Demo.encoded_store !! h_loc Demo.handle1).
Proof.
  apply (proj2 (decode_never_writes string Demo.get_backend Demo.get_fsmap
                  Demo.io_fault Demo.encoded_record PyNone
                  Demo.encoded_store) Demo.handle1).
  vm_compute. reflexivity.
Defined.

Lemma validate_unordered_array_raises_witness :
  validate (PyArray Demo.label_movie) = inl no_less_loop /\
  exn_class no_less_loop = "TypeError" /\
  Demo.encode (PyArray Demo.label_movie) Demo.key1 PyNone Demo.encoded_store
  = (Demo.encoded_store, inl (encode_error no_less_loop)).
Proof.
  apply (validate_unordered_array_raises Demo.extract_context Demo.build_path
           string Demo.get_backend Demo.get_fsmap Demo.generalized_anscombe
           Demo.io_fault Demo.torn_write Demo.label_movie).
  - reflexivity.
  - discriminate.
  - unfold ndim. simpl. lia.
Defined.
